(** * pyarea-ui: the row store, the area calculator and the document format

    A shallow embedding of [area.py].  Python floats are IEEE 754 binary64
    numbers and are embedded as Rocq's primitive floats; the built-in
    functions the program calls on them ([float], [round], [str], [int])
    are given executable definitions in [PyFloat]; the classes [Store],
    [Window] and [UI] follow in modules of the same names. *)

From Stdlib Require Import ZArith List String Ascii Floats Lia Bool.
Import ListNotations.

Local Open Scope Z_scope.
#[local] Set Warnings "-inexact-float".

(** ** Characters and text *)

Module Text.

Definition code (c : ascii) : N := N_of_ascii c.

(** [c.isdigit()] and the regular expression class [\d], on ASCII. *)
Definition is_digit (c : ascii) : bool :=
  ((48 <=? code c) && (code c <=? 57))%N.

(** [Py_ISSPACE]: space, and the controls [\t \n \v \f \r]. *)
Definition is_space (c : ascii) : bool :=
  ((code c =? 32) || ((9 <=? code c) && (code c <=? 13)))%N.

Definition digit_val (c : ascii) : Z := Z.of_N (code c) - 48.

Definition digit_char (d : Z) : ascii := ascii_of_N (Z.to_N (d + 48)).

(** ASCII lower-casing, for the case-insensitive words [inf] and [nan]. *)
Definition lower (c : ascii) : ascii :=
  if ((65 <=? code c) && (code c <=? 90))%N
  then ascii_of_N (code c + 32) else c.

Definition chars (s : string) : list ascii := list_ascii_of_string s.
Definition text (l : list ascii) : string := string_of_list_ascii l.

Fixpoint drop_while (p : ascii -> bool) (l : list ascii) : list ascii :=
  match l with
  | c :: l' => if p c then drop_while p l' else l
  | [] => []
  end.

(** Splits off the longest prefix of digits. *)
Fixpoint span_digits (l : list ascii) : list ascii * list ascii :=
  match l with
  | c :: l' =>
      if is_digit c
      then let '(ds, rest) := span_digits l' in (c :: ds, rest)
      else ([], l)
  | [] => ([], [])
  end.

(** Value of a digit string read in base ten, most significant first. *)
Definition digits_val (ds : list ascii) : Z :=
  fold_left (fun acc c => 10 * acc + digit_val c) ds 0.

(** Base-ten digits of a non-negative integer, most significant first;
    [fuel] bounds the number of digits produced. *)
Fixpoint digits_of_fuel (fuel : nat) (n : Z) (acc : list ascii) : list ascii :=
  match fuel with
  | O => acc
  | S fuel' =>
      if n <? 10 then digit_char n :: acc
      else digits_of_fuel fuel' (n / 10) (digit_char (n mod 10) :: acc)
  end.

Definition digits_of (n : Z) : list ascii :=
  digits_of_fuel (S (Z.to_nat (Z.log2 n))) n [].

(** [str(n)] for a Python [int]. *)
Definition str_int (n : Z) : string :=
  if n <? 0 then String "-" (text (digits_of (- n))) else text (digits_of n).

End Text.

(** ** Python's [float] type and the built-ins used on it *)

Module PyFloat.
Import Text.

Definition is_nan (x : float) : bool := negb (PrimFloat.eqb x x).

Definition is_finite (x : float) : bool :=
  match Prim2SF x with
  | S754_zero _ | S754_finite _ _ _ => true
  | _ => false
  end.

(** The double nearest to [(-1)^s * m * 10^e], ties to even: what
    [strtod] returns for a decimal numeral.  A magnitude beyond the
    largest double gives an infinity, as [float()] does. *)
Definition of_decimal (s : bool) (m : Z) (e : Z) : float :=
  if m <=? 0 then (if s then neg_zero else zero)
  else if 0 <=? e
  then SF2Prim (binary_normalize prec emax (cond_Zopp s (m * 10 ^ e)) 0 s)
  else
    let '(mz, ez, lz) := SFdiv_core_binary prec emax m 0 (10 ^ (- e)) 0 in
    SF2Prim (binary_round_aux prec emax s mz ez lz).

(** *** [float(text)] *)

(** Removal of the digit-group underscores: one is allowed only between
    two digits ([_Py_string_to_number_with_underscores]). *)
Fixpoint strip_underscores (prev : option ascii) (l : list ascii)
  : option (list ascii) :=
  match l with
  | [] =>
      match prev with
      | Some "_"%char => None
      | _ => Some []
      end
  | c :: l' =>
      if Ascii.eqb c "_" then
        match prev with
        | Some p => if is_digit p then strip_underscores (Some c) l' else None
        | None => None
        end
      else
        match prev with
        | Some "_"%char =>
            if is_digit c
            then option_map (cons c) (strip_underscores (Some c) l')
            else None
        | _ => option_map (cons c) (strip_underscores (Some c) l')
        end
  end.

Definition parse_sign (l : list ascii) : bool * list ascii :=
  match l with
  | "-"%char :: l' => (true, l')
  | "+"%char :: l' => (false, l')
  | _ => (false, l)
  end.

(** The exponent part [e[+-]digits]; an [e] that no digit follows is not
    part of the numeral and is left in the rest. *)
Definition parse_exponent (l : list ascii) : Z * list ascii :=
  match l with
  | c :: l' =>
      if Ascii.eqb (lower c) "e" then
        let '(neg, l'') := parse_sign l' in
        match span_digits l'' with
        | ([], _) => (0, l)
        | (ds, rest) => ((if neg then - digits_val ds else digits_val ds), rest)
        end
      else (0, l)
  | [] => (0, [])
  end.

(** [digits [. digits] [exponent]] or [. digits [exponent]]: the
    mantissa as an integer and the decimal exponent, with the rest. *)
Definition parse_number (l : list ascii) : option (Z * Z * list ascii) :=
  let '(ip, l1) := span_digits l in
  let '(fp, l2) :=
    match l1 with
    | "."%char :: l1' => span_digits l1'
    | _ => ([], l1)
    end in
  match ip ++ fp with
  | [] => None
  | ds =>
      let '(ex, rest) := parse_exponent l2 in
      Some (digits_val ds, ex - Z.of_nat (List.length fp), rest)
  end.

(** [inf], [infinity] and [nan], in any letter case. *)
Definition parse_inf_nan (s : bool) (l : list ascii) : option (float * list ascii) :=
  match map lower l with
  | "i"%char :: "n"%char :: "f"%char :: "i"%char :: "n"%char :: "i"%char
      :: "t"%char :: "y"%char :: _ =>
      Some ((if s then neg_infinity else infinity), skipn 8 l)
  | "i"%char :: "n"%char :: "f"%char :: _ =>
      Some ((if s then neg_infinity else infinity), skipn 3 l)
  | "n"%char :: "a"%char :: "n"%char :: _ => Some (nan, skipn 3 l)
  | _ => None
  end.

(** [PyOS_string_to_double] on text without surrounding blanks; the
    whole text has to be consumed. *)
Definition parse_float (l : list ascii) : option float :=
  let '(s, l1) := parse_sign l in
  match parse_number l1 with
  | Some (m, e, []) => Some (of_decimal s m e)
  | Some (_, _, _ :: _) => None
  | None =>
      match parse_inf_nan s l1 with
      | Some (x, []) => Some x
      | _ => None
      end
  end.

Definition strip (l : list ascii) : list ascii :=
  rev (drop_while is_space (rev (drop_while is_space l))).

(** [float(s)] for a [str]: [None] stands for the [ValueError]. *)
Definition float_of_string (s : string) : option float :=
  match strip (chars s) with
  | [] => None
  | l =>
      if existsb (Ascii.eqb "_") l
      then match strip_underscores None l with
           | Some l' => parse_float l'
           | None => None
           end
      else parse_float l
  end.

(** *** [round(x, ndigits)] *)

(** The integer nearest to [n / d], ties to the even one ([0 <= n],
    [0 < d]). *)
Definition div_half_even (n d : Z) : Z :=
  let q := n / d in
  match 2 * (n mod d) ?= d with
  | Lt => q
  | Gt => q + 1
  | Eq => if Z.even q then q else q + 1
  end.

(** The magnitude [m * 2^e] of a finite double as a fraction. *)
Definition fraction (m : positive) (e : Z) : Z * Z :=
  if 0 <=? e then (Zpos m * 2 ^ e, 1) else (Zpos m, 2 ^ (- e)).

(** [round(x, ndigits)] for [0 <= ndigits]: the exact value of [x] is
    rounded, ties to even, to a multiple of [10^-ndigits], and that
    decimal is converted back to the nearest double
    ([double_round] of [floatobject.c]).  Infinities and NaN are
    returned as they are, and a zero keeps its sign. *)
Definition round (x : float) (ndigits : Z) : float :=
  match Prim2SF x with
  | S754_finite s m e =>
      let '(num, den) := fraction m e in
      of_decimal s (div_half_even (num * 10 ^ ndigits) den) (- ndigits)
  | _ => x
  end.

(** *** [str(x)] and [repr(x)] *)

Definition dec_len (n : Z) : Z := Z.of_nat (List.length (digits_of n)).

(** The decimal point position of [num / den > 0]: the [p] with
    [10^(p-1) <= num / den < 10^p]. *)
Definition decimal_point (num den : Z) : Z :=
  dec_len (num * 10 ^ 400 / den) - 400.

(** Search for the shortest decimal [c * 10^k] that [float()] reads back
    as [x > 0], trying [n], [n+1], ... significant digits; of the two
    [n]-digit neighbours of [x] the nearer is preferred.  Seventeen
    digits always suffice for a double: when the fuel is used up the
    nearest decimal of that length is taken. *)
Fixpoint shortest (fuel : nat) (x : float) (num den p n : Z) : Z * Z :=
  let k := p - n in
  let '(a, b) := if 0 <=? k then (num, den * 10 ^ k) else (num * 10 ^ (- k), den) in
  match fuel with
  | O => (div_half_even a b, k)
  | S fuel' =>
      let lo := a / b in
      let lo_ok := PrimFloat.eqb (of_decimal false lo k) x in
      let hi_ok := PrimFloat.eqb (of_decimal false (lo + 1) k) x in
      if a mod b =? 0 then (lo, k)
      else if lo_ok && hi_ok then (div_half_even a b, k)
      else if lo_ok then (lo, k)
      else if hi_ok then (lo + 1, k)
      else shortest fuel' x num den p (n + 1)
  end.

Definition strip_zeros (ds : list ascii) : list ascii :=
  rev (drop_while (Ascii.eqb "0") (rev ds)).

Definition zeros (n : Z) : list ascii := repeat "0"%char (Z.to_nat n).

(** The exponent of the scientific form: a sign and at least two
    digits. *)
Definition exponent_text (e : Z) : list ascii :=
  let ds := digits_of (Z.abs e) in
  (if e <? 0 then "-"%char else "+"%char)
    :: (if Z.abs e <? 10 then "0"%char :: ds else ds).

(** Layout of the digits [ds] with the decimal point after the first
    [decpt] of them, as [repr] does it: scientific form when
    [decpt <= -4] or [16 < decpt], else positional with at least one
    digit after the point. *)
Definition layout (ds : list ascii) (decpt : Z) : list ascii :=
  if (decpt <=? -4) || (16 <? decpt) then
    match ds with
    | [] => []
    | [d] => d :: "e"%char :: exponent_text (decpt - 1)
    | d :: ds' => d :: "."%char :: ds' ++ "e"%char :: exponent_text (decpt - 1)
    end
  else if decpt <=? 0 then
    "0"%char :: "."%char :: zeros (- decpt) ++ ds
  else if Z.of_nat (List.length ds) <=? decpt then
    ds ++ zeros (decpt - Z.of_nat (List.length ds)) ++ ["."%char; "0"%char]
  else
    firstn (Z.to_nat decpt) ds ++ "."%char :: skipn (Z.to_nat decpt) ds.

(** [repr(x)], which is also [str(x)] and what [format] puts for [{}]. *)
Definition repr (x : float) : string :=
  match Prim2SF x with
  | S754_nan => "nan"
  | S754_infinity s => if s then "-inf" else "inf"
  | S754_zero s => if s then "-0.0" else "0.0"
  | S754_finite s m e =>
      let '(num, den) := fraction m e in
      let '(c, k) := shortest 16 (abs x) num den (decimal_point num den) 1 in
      let body := layout (strip_zeros (digits_of c)) (k + dec_len c) in
      text (if s then "-"%char :: body else body)
  end.

(** [int(x)]: truncation towards zero; [None] stands for the error
    raised on an infinity or a NaN. *)
Definition to_int (x : float) : option Z :=
  match Prim2SF x with
  | S754_zero _ => Some 0
  | S754_finite s m e =>
      let '(num, den) := fraction m e in
      Some (cond_Zopp s (num / den))
  | _ => None
  end.

End PyFloat.

(** ** class [Store] *)

Module Store.
Import Text PyFloat.

(** [InputRow], [InputData]: the numeric snapshot. *)
Definition InputRow : Type := float * float * float.
Definition InputData : Type := list InputRow.

(** [StoreRowType]: three [StringVar]s, here the text each one holds. *)
Definition StoreRowType : Type := string * string * string.

(** [StorageType]: a [dict] from [int] to rows.  A Python [dict] keeps
    its keys in insertion order and [items()] follows that order, so it
    is an association list without repeated keys. *)
Definition StorageType : Type := list (nat * StoreRowType).

(** [d[k] = v]: replaces the value in place when [k] is present, else
    appends the new entry. *)
Fixpoint dict_set (k : nat) (v : StoreRowType) (d : StorageType) : StorageType :=
  match d with
  | [] => [(k, v)]
  | (k', v') :: d' =>
      if Nat.eqb k k' then (k, v) :: d' else (k', v') :: dict_set k v d'
  end.

Definition dict_mem (k : nat) (d : StorageType) : bool :=
  existsb (fun e => Nat.eqb k (fst e)) d.

Definition dict_remove (k : nat) (d : StorageType) : StorageType :=
  filter (fun e => negb (Nat.eqb k (fst e))) d.

(** [del d[k]]: [None] stands for the [KeyError] of an absent key. *)
Definition dict_del (k : nat) (d : StorageType) : option StorageType :=
  if dict_mem k d then Some (dict_remove k d) else None.

Definition keys (d : StorageType) : list nat := map fst d.

Record unit_entry : Type :=
  { name : string; symbol : string; calc : float -> float }.

(** [12**2], an [int] that the division converts to a float. *)
Definition int_to_float (n : Z) : float := of_decimal (n <? 0) (Z.abs n) 0.

(** [x ** 2] on a float is the C library's [pow(x, 2.0)], taken here as
    the correctly rounded square. *)
Definition float_square (x : float) : float := (x * x)%float.

(** The [units] property; [None] stands for the [KeyError] of an index
    other than 0 and 1. *)
Definition units (id : Z) : option unit_entry :=
  match id with
  | 0 => Some {| name := "Inches"; symbol := "in";
                 calc := fun x => (x / int_to_float (12 ^ 2))%float |}
  | 1 => Some {| name := "Centimeter"; symbol := "cm";
                 calc := fun x => (x * float_square 0.032808399)%float |}
  | _ => None
  end.

(** [add]: the identifier is the size of the mapping; the returned
    [delete_row] closure is represented by the identifier it
    captures. *)
Definition add (storage : StorageType) (values : StoreRowType)
  : StorageType * nat :=
  let id := List.length storage in
  (dict_set id values storage, id).

(** The [destroy] closure made by [add] for [id], as far as the store
    is concerned: [del self.storage[id]]. *)
Definition destroy (storage : StorageType) (id : nat) : option StorageType :=
  dict_del id storage.

Definition clear (storage : StorageType) : StorageType := [].

(** [to_float]: the bare [except] turns every failure into [0.0]. *)
Definition to_float (strvar : string) : float :=
  match float_of_string strvar with
  | Some x => x
  | None => 0%float
  end.

Definition values (storage : StorageType) : InputData :=
  map (fun '(_, (l, w, c)) => (to_float l, to_float w, to_float c)) storage.

End Store.

(** ** class [Window] *)

Module Window.
Import Text PyFloat.

(** A number as a row of a document or of [input_data] can hold it: the
    sentinel row is made of [int]s, the other rows of floats. *)
Inductive number : Type :=
| Int (n : Z)
| Float (x : float).

Inductive exn : Type := KeyError | IndexError | ValueError | OverflowError.

(** How a method call ends: it returns, or an exception leaves it. *)
Inductive status : Type :=
| Returned
| Raised (e : exn).

(** The fields of the window that the methods read and write:
    [_store.storage], [unit_id], [_result], the children of
    [_input_frame] (for each row frame the identifier its Delete button
    was bound to) and the lines printed so far. *)
Record state : Type :=
  { storage : Store.StorageType;
    unit_id : Z;
    result : string;
    input_frame : list nat;
    stdout : list string }.

Definition set_storage (d : Store.StorageType) (st : state) : state :=
  {| storage := d; unit_id := unit_id st; result := result st;
     input_frame := input_frame st; stdout := stdout st |}.

Definition set_unit_id (u : Z) (st : state) : state :=
  {| storage := storage st; unit_id := u; result := result st;
     input_frame := input_frame st; stdout := stdout st |}.

Definition set_result (r : string) (st : state) : state :=
  {| storage := storage st; unit_id := unit_id st; result := r;
     input_frame := input_frame st; stdout := stdout st |}.

Definition set_input_frame (f : list nat) (st : state) : state :=
  {| storage := storage st; unit_id := unit_id st; result := result st;
     input_frame := f; stdout := stdout st |}.

Definition print (line : string) (st : state) : state :=
  {| storage := storage st; unit_id := unit_id st; result := result st;
     input_frame := input_frame st; stdout := stdout st ++ [line] |}.

(** [_set_variables] *)
Definition _set_variables : state :=
  {| storage := []; unit_id := 0; result := ""; input_frame := [];
     stdout := [] |}.

(** [_convert_to_feet]; [None] stands for the [KeyError] of [units]. *)
Definition _convert_to_feet (st : state) (value : float) : option float :=
  match Store.units (unit_id st) with
  | Some unit => Some (round (Store.calc unit value) 2)
  | None => None
  end.

(** ["Square {}: {}, Square Feets: {}".format(name, result, feet)] *)
Definition describe (name : string) (raw feet : float) : string :=
  ("Square " ++ name ++ ": " ++ repr raw ++ ", Square Feets: " ++ repr feet)%string.

(** [_load_result] *)
Definition _load_result (st : state) (res : float) : state * status :=
  match Store.units (unit_id st), _convert_to_feet st res with
  | Some unit, Some feet =>
      (set_result (describe (Store.name unit) res feet) st, Returned)
  | _, _ => (st, Raised KeyError)
  end.

(** [_clear_input] *)
Definition _clear_input (st : state) : state :=
  set_storage (Store.clear (storage st)) (set_input_frame [] st).

(** [key.isdigit()]: at least one character, all of them digits. *)
Definition isdigit (s : string) : bool :=
  match chars s with
  | [] => false
  | l => forallb is_digit l
  end.

(** The language of [\d+\.?\d*]. *)
Definition digits_point_digits (l : list ascii) : bool :=
  match span_digits l with
  | ([], _) => false
  | (_, []) => true
  | (_, c :: rest) => Ascii.eqb c "." && forallb is_digit rest
  end.

(** [re.match(r"^\d+\.?\d*$", s)] finds a match: [$] stands at the end
    of the text and also just before a line feed that ends it. *)
Definition re_match (s : string) : bool :=
  let l := chars s in
  digits_point_digits l
  || match rev l with
     | c :: r => Ascii.eqb c "010" && digits_point_digits (rev r)
     | [] => false
     end.

(** [_validate_entry] *)
Definition _validate_entry (new_val val key : string) : bool :=
  let is_digit := isdigit key in
  if String.eqb new_val "" then true
  else if String.eqb val "" then is_digit
  else if negb (is_digit || String.eqb key ".") then false
  else re_match new_val.

(** [x == 0.0] *)
Definition is_zero (x : number) : bool :=
  match x with
  | Int n => n =? 0
  | Float x => PrimFloat.eqb x 0
  end.

(** [str(x)] *)
Definition str (x : number) : string :=
  match x with
  | Int n => str_int n
  | Float x => repr x
  end.

(** The local function [e] of [_load_row]: the text put in an entry. *)
Definition entry_text (x : number) : string :=
  if is_zero x then "" else str x.

(** [_load_row]: [values] is a tuple; anything but three items leaves
    the defaults. *)
Definition _load_row (st : state) (values : list number) : state :=
  let '(length, width, count) :=
    match values with
    | [l; w; c] => (l, w, c)
    | _ => (Float 0, Float 0, Float 1)
    end in
  let '(d, id) :=
    Store.add (storage st)
      (entry_text length, entry_text width, entry_text count) in
  set_storage d (set_input_frame (input_frame st ++ [id]) st).

(** A click on the Delete button of the [i]-th row frame: the frame is
    destroyed, then the entry of the captured identifier is deleted. *)
Definition click_delete (i : nat) (st : state) : state * status :=
  match nth_error (input_frame st) i with
  | None => (st, Returned)
  | Some id =>
      let st' :=
        set_input_frame (firstn i (input_frame st) ++ skipn (S i) (input_frame st)) st in
      match Store.destroy (storage st') id with
      | Some d => (set_storage d st', Returned)
      | None => (st', Raised KeyError)
      end
  end.

Section Abstract.
(** The abstract method [_calc], implemented by the subclass. *)
Variable _calc : state -> state * status.

(** [_load_window], as far as rows are concerned. *)
Definition _load_window (st : state) (input_data : list (list number)) : state :=
  match input_data with
  | [] => _load_row st []
  | _ => fold_left _load_row input_data st
  end.

(** [__init__] *)
Definition init (input_data : list (list number)) : state * status :=
  _calc (_load_window _set_variables input_data).
End Abstract.

End Window.

(** ** class [UI] *)

Module UI.
Import Text PyFloat Window.

(** The accumulation loop of [_calc]. *)
Definition total_area (snapshot : Store.InputData) : float :=
  fold_left (fun res '(r0, r1, r2) => (res + r0 * r1 * r2)%float) snapshot 0%float.

(** [_calc] *)
Definition _calc (st : state) : state * status :=
  _load_result st (total_area (Store.values (storage st))).

(** [UI(app)] for [App(entrylist)]. *)
Definition init (entrylist : list (list number)) : state * status :=
  Window.init _calc entrylist.

(** What [pickle.load] can return here: [None], or a list of tuples of
    numbers. *)
Inductive pyvalue : Type :=
| PyNone
| PyList (rows : list (list number)).

(** A file holds the pickle of a value, or bytes that [pickle.load]
    rejects. *)
Inductive file : Type :=
| Pickle (v : pyvalue)
| Bytes.

(** The files by name, and for which names [open(_, "wb")] succeeds
    (not for the empty name of a cancelled dialog, for one). *)
Record filesystem : Type :=
  { files : string -> option file;
    writable : string -> bool }.

Definition write (fs : filesystem) (filename : string) (f : file) : filesystem :=
  {| files := fun n => if String.eqb n filename then Some f else files fs n;
     writable := writable fs |}.

(** [open(filename, "rb")] followed by [pickle.load]; [None] when one
    of the two raises. *)
Definition unpickle (fs : filesystem) (filename : string) : option pyvalue :=
  match files fs filename with
  | Some (Pickle v) => Some v
  | Some Bytes | None => None
  end.

(** [int(x)] *)
Definition int (x : number) : Z + exn :=
  match x with
  | Int n => inl n
  | Float x =>
      match to_int x with
      | Some n => inl n
      | None => inr (if is_nan x then ValueError else OverflowError)
      end
  end.

(** [_load], for the file name the dialog returned. *)
Definition _load (filename : string) (fs : filesystem) (st : state)
  : state * status :=
  match unpickle fs filename with
  | None => (print "Failed to load file" st, Returned)
  | Some PyNone => (st, Returned)
  | Some (PyList data) =>
      let st := _clear_input st in
      match data with
      | [] => (st, Raised IndexError)
      | unit :: data =>
          match nth_error unit 2 with
          | None => (st, Raised IndexError)
          | Some u =>
              match int u with
              | inr e => (st, Raised e)
              | inl n => _calc (fold_left _load_row data (set_unit_id n st))
              end
          end
      end
  end.

Definition row_numbers (r : Store.InputRow) : list number :=
  let '(l, w, c) := r in [Float l; Float w; Float c].



End UI.

(** ** The contracts the specification words, next to the code *)

Module Spec.
Import PyFloat.

(** The contribution [length * width * count] of one row. *)
Definition row_area (r : Store.InputRow) : float :=
  let '(l, w, c) := r in (l * w * c)%float.

(** Python's [sum] of a sequence of floats, from the left. *)
Definition float_sum (xs : list float) : float :=
  fold_left PrimFloat.add xs 0%float.

(** [totalArea(snapshot)]: the sum of the row areas. *)
Definition totalArea (snapshot : Store.InputData) : float :=
  float_sum (map row_area snapshot).

(** [r] is the value of [y] rounded to two decimal places: the double
    nearest to [n / 100] for an integer [n] within one half of
    [100 * |y|]; an infinity or a NaN is kept. *)
Definition rounds_to_2_places (y r : float) : Prop :=
  match Prim2SF y with
  | S754_finite s m e =>
      exists n : Z,
        r = of_decimal s n (- 2)
        /\ Z.abs (2 * (100 * fst (fraction m e) - n * snd (fraction m e)))
           <= snd (fraction m e)
  | _ => r = y
  end.


(** Operations of a session on the row store. *)
Inductive op : Type :=
| Add (values : Store.StoreRowType)
| Remove (id : nat).

(** One operation; a removal that raises leaves the mapping as it
    was. *)
Definition step (storage : Store.StorageType) (o : op) : Store.StorageType :=
  match o with
  | Add values => fst (Store.add storage values)
  | Remove id =>
      match Store.destroy storage id with
      | Some d => d
      | None => storage
      end
  end.

Definition run (ops : list op) : Store.StorageType := fold_left step ops [].

(** The identifiers handed out by the adds of a session, in order. *)
Fixpoint assigned (storage : Store.StorageType) (ops : list op) : list nat :=
  match ops with
  | [] => []
  | Add values :: ops' =>
      snd (Store.add storage values) :: assigned (step storage (Add values)) ops'
  | Remove id :: ops' => assigned (step storage (Remove id)) ops'
  end.

(** Adds minus the removes that found their row. *)
Fixpoint present_rows (storage : Store.StorageType) (ops : list op) (n : Z) : Z :=
  match ops with
  | [] => n
  | Add values :: ops' => present_rows (step storage (Add values)) ops' (n + 1)
  | Remove id :: ops' =>
      present_rows (step storage (Remove id)) ops'
        (if Store.dict_mem id storage then n - 1 else n)
  end.






(** No file yet; every name but the empty one can be written. *)
Definition no_files : UI.filesystem :=
  {| UI.files := fun _ => None;
     UI.writable := fun n => negb (String.eqb n "") |}.

(** The numbers of a snapshot, row after row. *)
Definition fields (snapshot : Store.InputData) : list float :=
  flat_map (fun '(l, w, c) => [l; w; c]) snapshot.

(** [float(repr(x))] gives [x] back, which Python promises of [repr]. *)
Definition repr_reads_back (x : float) : Prop :=
  float_of_string (repr x) = Some x.

Definition survives_reload (x : float) : Prop :=
  x <> neg_zero /\ repr_reads_back x.






(** A store with the rows (2,3,1) and (4,5,1), and Centimeter
    selected. *)
Definition scenario : Window.state :=
  let '(d1, _) := Store.add [] ("2", "3", "1")%string in
  let '(d2, _) := Store.add d1 ("4", "5", "1")%string in
  Window.set_unit_id 1 (Window.set_storage d2 Window._set_variables).

(** The keys of a mapping filled by adds alone: 0, 1, 2, ... *)
Definition dense (d : Store.StorageType) : Prop :=
  Store.keys d = seq 0 (List.length d).

(** What a row of a snapshot becomes when it is written as entry text
    by [_load_row] and parsed again by [values]. *)
Definition reload_row (r : Store.InputRow) : Store.InputRow :=
  let '(l, w, c) := r in
  (Store.to_float (Window.entry_text (Window.Float l)),
   Store.to_float (Window.entry_text (Window.Float w)),
   Store.to_float (Window.entry_text (Window.Float c))).

End Spec.

(** ** Sessions: typing into an entry, and windows whose rows are in step
    with the store *)

Module Session.


(** Each row frame of the window is bound to the entry of its own row:
    the identifiers of the frames are the keys of the mapping, in
    order. *)
Definition in_step (st : Window.state) : Prop :=
  Window.input_frame st = Store.keys (Window.storage st).

(** The snapshot row of three texts. *)
Definition parse_row (r : Store.StoreRowType) : Store.InputRow :=
  let '(l, w, c) := r in
  (Store.to_float l, Store.to_float w, Store.to_float c).

(** The window after a click on Delete in the [i]-th row frame. *)
Definition after_delete (i : nat) (st : Window.state) : Window.state :=
  fst (Window.click_delete i st).

End Session.

(** * Properties *)

Import Text PyFloat.

(** ** The area calculation *)

Lemma total_area_from (snapshot : Store.InputData) (acc : float) :
  fold_left (fun res '(r0, r1, r2) => (res + r0 * r1 * r2)%float) snapshot acc
  = fold_left PrimFloat.add (map Spec.row_area snapshot) acc.
Proof.
  revert acc.
  induction snapshot as [| [[l w] c] rows IH]; intros acc; simpl.
  - reflexivity.
  - apply IH.
Qed.

Lemma total_area_snoc (snapshot : Store.InputData) (r : Store.InputRow) :
  UI.total_area (snapshot ++ [r])
  = (UI.total_area snapshot + Spec.row_area r)%float.
Proof.
  unfold UI.total_area. rewrite fold_left_app.
  destruct r as [[l w] c]. reflexivity.
Qed.

(** C1: the loop of [_calc] computes the sum of [length * width * count]
    over the rows of the snapshot, added from the left starting at [0.0],
    and hands it to [_load_result]; the empty snapshot gives [0.0],
    [[(2,3,1)]] gives [6.0] and [[(2,3,1),(1,1,1)]] gives [7.0]. *)
Theorem total_area_is_sum_of_products :
  forall (snapshot : Store.InputData) (r : Store.InputRow) (st : Window.state),
    UI.total_area snapshot = Spec.totalArea snapshot
    /\ UI.total_area (snapshot ++ [r])
       = (UI.total_area snapshot + Spec.row_area r)%float
    /\ UI._calc st
       = Window._load_result st (Spec.totalArea (Store.values (Window.storage st)))
    /\ UI.total_area [] = 0%float
    /\ UI.total_area [(2, 3, 1)%float] = 6%float
    /\ UI.total_area [(2, 3, 1)%float; (1, 1, 1)%float] = 7%float.
Proof.
  intros snapshot r st.
  assert (E : forall s, UI.total_area s = Spec.totalArea s)
    by (intros s; apply total_area_from).
  split; [apply E |].
  split; [apply total_area_snoc |].
  split; [unfold UI._calc; rewrite E; reflexivity |].
  split; [reflexivity |].
  split; vm_compute; reflexivity.
Qed.

(** ** The unit conversion *)

Lemma div_half_even_nearest (n d : Z) :
  0 <= n -> 0 < d -> Z.abs (2 * (n - div_half_even n d * d)) <= d.
Proof.
  intros Hn Hd. unfold div_half_even.
  pose proof (Z.div_mod n d ltac:(lia)) as E.
  pose proof (Z.mod_pos_bound n d Hd) as B.
  destruct (Z.compare_spec (2 * (n mod d)) d) as [H | H | H].
  - destruct (Z.even (n / d)); nia.
  - nia.
  - nia.
Qed.

Lemma fraction_pos (m : positive) (e : Z) :
  0 <= fst (fraction m e) /\ 0 < snd (fraction m e).
Proof.
  unfold fraction. destruct (0 <=? e) eqn:He; cbn [fst snd].
  - split; [| lia]. apply Z.leb_le in He.
    apply Z.mul_nonneg_nonneg; [lia |]. apply Z.pow_nonneg. lia.
  - split; [lia |]. apply Z.leb_gt in He. apply Z.pow_pos_nonneg; lia.
Qed.

Lemma round_2_places (y : float) : Spec.rounds_to_2_places y (round y 2).
Proof.
  unfold Spec.rounds_to_2_places, round.
  destruct (Prim2SF y) as [s | s | | s m e]; try reflexivity.
  destruct (fraction_pos m e) as [Hn Hd].
  destruct (fraction m e) as [num den]; cbn [fst snd] in *.
  exists (div_half_even (num * 10 ^ 2) den). split; [reflexivity |].
  pose proof (div_half_even_nearest (num * 10 ^ 2) den ltac:(lia) Hd) as H.
  change (10 ^ 2) with 100 in *.
  replace (100 * num) with (num * 100) by lia. exact H.
Qed.

(** C2: [_convert_to_feet] applies the factor of the selected unit, a
    division by 144 for Inches and a multiplication by the square of
    0.032808399 for Centimeter, and rounds the outcome to two decimal
    places; 144 square inches are [1.0] and one square centimetre
    rounds to [0.0]. *)
Theorem convert_applies_factor_then_rounds :
  forall (st : Window.state) (value : float),
    Window._convert_to_feet (Window.set_unit_id 0 st) value
    = Some (round (value / 144) 2)
    /\ Window._convert_to_feet (Window.set_unit_id 1 st) value
       = Some (round (value * (0.032808399 * 0.032808399)) 2)
    /\ Spec.rounds_to_2_places (value / 144) (round (value / 144) 2)
    /\ Spec.rounds_to_2_places (value * (0.032808399 * 0.032808399))
         (round (value * (0.032808399 * 0.032808399)) 2)
    /\ Window._convert_to_feet (Window.set_unit_id 0 st) 144 = Some 1%float
    /\ Window._convert_to_feet (Window.set_unit_id 1 st) 1 = Some 0%float.
Proof.
  intros st value.
  assert (E144 : Store.int_to_float (12 ^ 2) = 144%float)
    by (vm_compute; reflexivity).
  split.
  { unfold Window._convert_to_feet, Window.set_unit_id, Window.unit_id,
      Store.units, Store.calc.
    rewrite E144. reflexivity. }
  split.
  { unfold Window._convert_to_feet, Window.set_unit_id, Window.unit_id,
      Store.units, Store.calc, Store.float_square.
    reflexivity. }
  split; [apply round_2_places |].
  split; [apply round_2_places |].
  split; vm_compute; reflexivity.
Qed.

(** ** Parsing of the stored text *)

Lemma to_float_cases (strvar : string) :
  (exists x, float_of_string strvar = Some x /\ Store.to_float strvar = x)
  \/ (float_of_string strvar = None /\ Store.to_float strvar = 0%float).
Proof.
  unfold Store.to_float.
  destruct (float_of_string strvar) as [x |].
  - left. exists x. split; reflexivity.
  - right. split; reflexivity.
Qed.

Lemma values_length (storage : Store.StorageType) :
  List.length (Store.values storage) = List.length storage.
Proof. unfold Store.values. apply length_map. Qed.

(** C7: [to_float] returns a float for every text, the parsed number
    when [float()] accepts the text and [0.0] when it raises, so that
    [values] yields one triple per stored row whatever the texts are;
    ["abc"] and the empty text give [0.0], ["3.5"] gives [3.5]. *)
Theorem to_float_defaults_to_zero :
  forall (strvar : string) (storage : Store.StorageType),
    ((exists x, float_of_string strvar = Some x /\ Store.to_float strvar = x)
     \/ (float_of_string strvar = None /\ Store.to_float strvar = 0%float))
    /\ List.length (Store.values storage) = List.length storage
    /\ float_of_string "abc" = None
    /\ float_of_string "" = None
    /\ Store.to_float "abc" = 0%float
    /\ Store.to_float "" = 0%float
    /\ Store.to_float "3.5" = 3.5%float
    /\ Store.values [(0%nat, ("abc", "", "3.5"))%string]
       = [(0, 0, 3.5)%float].
Proof.
  intros strvar storage.
  split; [apply to_float_cases |].
  split; [apply values_length |].
  repeat (split; [vm_compute; reflexivity |]).
  vm_compute. reflexivity.
Qed.

(** C10: [to_float] and [values] accept every text that [float()]
    accepts, also those the entry validation rejects: ["-3"], ["1e5"],
    [" 2 "], ["inf"] and ["nan"] give their values, and rows read from a
    document or from the initial data put such text in the store, so a
    snapshot can hold negative and non-finite numbers. *)
Theorem to_float_accepts_all_of_float :
  (forall (s : string) (x : float),
      float_of_string s = Some x -> Store.to_float s = x)
  /\ Store.to_float "-3" = (-3)%float
  /\ Store.to_float "1e5" = 100000%float
  /\ Store.to_float " 2 " = 2%float
  /\ Store.to_float "inf" = infinity
  /\ Store.to_float "nan" = nan
  /\ Window._validate_entry "-" "" "-" = false
  /\ Window._validate_entry "1e" "1" "e" = false
  /\ Store.values [(0%nat, ("-3", "inf", "nan"))%string]
     = [((-3)%float, infinity, nan)]
  /\ Window.storage
       (Window._load_row Window._set_variables
          [Window.Float (-3); Window.Float neg_infinity; Window.Float nan])
     = [(0%nat, ("-3.0", "-inf", "nan"))%string]
  /\ Store.values
       (Window.storage
          (Window._load_row Window._set_variables
             [Window.Float (-3); Window.Float neg_infinity; Window.Float nan]))
     = [((-3)%float, neg_infinity, nan)].
Proof.
  split.
  { intros s x H. unfold Store.to_float. rewrite H. reflexivity. }
  repeat (split; [vm_compute; reflexivity |]).
  vm_compute. reflexivity.
Qed.

(** ** The end-to-end scenario *)

(** C8 as the specification states it fails: the total of the rows
    (2,3,1) and (4,5,1) is not [23.0]. *)
Lemma scenario_total_is_not_23 :
  Store.values (Window.storage Spec.scenario) = [(2, 3, 1)%float; (4, 5, 1)%float]
  /\ UI.total_area (Store.values (Window.storage Spec.scenario)) <> 23%float.
Proof.
  split; [vm_compute; reflexivity |].
  intros H. apply (f_equal Prim2SF) in H. vm_compute in H. discriminate H.
Qed.

(** C8, amended: the rows (2,3,1) and (4,5,1) total [26.0], which
    Centimeter converts to [0.03], and [_calc] reports
    ["Square Centimeter: 26.0, Square Feets: 0.03"]; a raw result of
    [23.0] converts to [0.02] and is described as
    ["Square Centimeter: 23.0, Square Feets: 0.02"]. *)
Theorem scenario_centimeter_report :
  UI.total_area (Store.values (Window.storage Spec.scenario)) = 26%float
  /\ Window._convert_to_feet Spec.scenario 26 = Some 0.03%float
  /\ Window.result (fst (UI._calc Spec.scenario))
     = "Square Centimeter: 26.0, Square Feets: 0.03"%string
  /\ snd (UI._calc Spec.scenario) = Window.Returned
  /\ Window._convert_to_feet Spec.scenario 23 = Some 0.02%float
  /\ Window.result (fst (Window._load_result Spec.scenario 23))
     = "Square Centimeter: 23.0, Square Feets: 0.02"%string.
Proof.
  repeat (split; [vm_compute; reflexivity |]).
  vm_compute. reflexivity.
Qed.

(** ** Row identifiers *)

Lemma destroy_keeps_others (d d' : Store.StorageType) (id : nat) :
  Store.destroy d id = Some d' ->
  forall (k : nat) (v : Store.StoreRowType),
    In (k, v) d' <-> In (k, v) d /\ k <> id.
Proof.
  unfold Store.destroy, Store.dict_del, Store.dict_remove.
  destruct (Store.dict_mem id d); [| discriminate].
  intros H k v. injection H as <-. rewrite filter_In. simpl.
  rewrite negb_true_iff, Nat.eqb_neq.
  split; intros [H1 H2]; split; auto.
Qed.

(** C5, where the code departs from it: a removal deletes its entry and
    leaves the other entries under their identifiers, but after two adds
    and the removal of the first row the next add is given the
    identifier 1, which the second row still holds, and takes that row's
    place. *)
Theorem add_reuses_identifier_after_removal :
  forall r0 r1 r2 : Store.StoreRowType,
    Spec.assigned [] [Spec.Add r0; Spec.Add r1; Spec.Remove 0; Spec.Add r2]
    = [0; 1; 1]%nat
    /\ Spec.run [Spec.Add r0; Spec.Add r1; Spec.Remove 0] = [(1%nat, r1)]
    /\ Spec.run [Spec.Add r0; Spec.Add r1; Spec.Remove 0; Spec.Add r2]
       = [(1%nat, r2)]
    /\ (forall (d d' : Store.StorageType) (id : nat),
           Store.destroy d id = Some d' ->
           forall (k : nat) (v : Store.StoreRowType),
             In (k, v) d' <-> In (k, v) d /\ k <> id).
Proof.
  intros r0 r1 r2. split; [reflexivity |]. split; [reflexivity |].
  split; [reflexivity |]. exact destroy_keeps_others.
Qed.

Lemma destroy_absent (storage : Store.StorageType) (id : nat) :
  Store.dict_mem id storage = false -> Store.destroy storage id = None.
Proof.
  intros H. unfold Store.destroy, Store.dict_del. rewrite H. reflexivity.
Qed.

(** C6, where the code departs from it: after add, add, remove of the
    first row, add, three adds and one removal leave two rows present
    (and two row frames in the window), but the snapshot has one row.
    Removing an identifier that is absent raises and leaves the mapping
    as it was. *)
Theorem snapshot_misses_a_present_row :
  forall r0 r1 r2 : Store.StoreRowType,
    Spec.present_rows []
      [Spec.Add r0; Spec.Add r1; Spec.Remove 0; Spec.Add r2] 0 = 2
    /\ List.length
         (Store.values
            (Spec.run [Spec.Add r0; Spec.Add r1; Spec.Remove 0; Spec.Add r2]))
       = 1%nat
    /\ (let st := Window._load_row (fst (UI.init [])) [] in
        let st := Window._load_row (fst (Window.click_delete 0 st)) [] in
        Window.input_frame st = [1; 1]%nat
        /\ List.length (Store.values (Window.storage st)) = 1%nat)
    /\ (forall (storage : Store.StorageType) (id : nat),
           Store.dict_mem id storage = false ->
           Store.destroy storage id = None
           /\ Spec.step storage (Spec.Remove id) = storage).
Proof.
  intros r0 r1 r2.
  split; [reflexivity |].
  split; [destruct r0 as [[? ?] ?], r1 as [[? ?] ?], r2 as [[? ?] ?]; reflexivity |].
  split; [vm_compute; split; reflexivity |].
  intros storage id H. unfold Spec.step.
  rewrite (destroy_absent storage id H). split; reflexivity.
Qed.

(** ** Entry validation *)























(** ** Loading and saving *)

Lemma load_result_keeps (st : Window.state) (res : float) :
  Window.storage (fst (Window._load_result st res)) = Window.storage st
  /\ Window.unit_id (fst (Window._load_result st res)) = Window.unit_id st
  /\ Window.input_frame (fst (Window._load_result st res)) = Window.input_frame st.
Proof.
  unfold Window._load_result.
  destruct (Store.units (Window.unit_id st)) as [u |];
    [destruct (Window._convert_to_feet st res) |]; repeat split; reflexivity.
Qed.

Lemma calc_keeps (st : Window.state) :
  Window.storage (fst (UI._calc st)) = Window.storage st
  /\ Window.unit_id (fst (UI._calc st)) = Window.unit_id st.
Proof.
  unfold UI._calc.
  destruct (load_result_keeps st
              (UI.total_area (Store.values (Window.storage st)))) as (H1 & H2 & _).
  split; assumption.
Qed.





Lemma dict_set_fresh (k : nat) (v : Store.StoreRowType) (d : Store.StorageType) :
  ~ In k (Store.keys d) -> Store.dict_set k v d = d ++ [(k, v)].
Proof.
  induction d as [| [k' v'] d IH]; simpl; intros H; [reflexivity |].
  destruct (Nat.eqb k k') eqn:E.
  - apply Nat.eqb_eq in E. exfalso. apply H. left. symmetry. exact E.
  - rewrite IH; [reflexivity |]. intros Hin. apply H. right. exact Hin.
Qed.

Lemma dense_fresh (d : Store.StorageType) :
  Spec.dense d -> ~ In (List.length d) (Store.keys d).
Proof.
  unfold Spec.dense. intros -> H. apply in_seq in H. lia.
Qed.

Lemma dense_snoc (d : Store.StorageType) (v : Store.StoreRowType) :
  Spec.dense d -> Spec.dense (d ++ [(List.length d, v)]).
Proof.
  unfold Spec.dense, Store.keys. intros H.
  rewrite map_app, length_app, H. simpl.
  rewrite Nat.add_1_r, seq_S. reflexivity.
Qed.

Lemma add_dense (d : Store.StorageType) (v : Store.StoreRowType) :
  Spec.dense d -> Store.add d v = (d ++ [(List.length d, v)], List.length d).
Proof.
  intros H. unfold Store.add.
  rewrite (dict_set_fresh _ v d (dense_fresh d H)). reflexivity.
Qed.

Lemma values_snoc (d : Store.StorageType) (k : nat) (l w c : string) :
  Store.values (d ++ [(k, (l, w, c))])
  = Store.values d ++ [(Store.to_float l, Store.to_float w, Store.to_float c)].
Proof. unfold Store.values. rewrite map_app. reflexivity. Qed.

Lemma load_rows (snapshot : Store.InputData) :
  forall st : Window.state,
    Spec.dense (Window.storage st) ->
    Store.values
      (Window.storage (fold_left Window._load_row (map UI.row_numbers snapshot) st))
    = Store.values (Window.storage st) ++ map Spec.reload_row snapshot
    /\ Window.unit_id (fold_left Window._load_row (map UI.row_numbers snapshot) st)
       = Window.unit_id st.
Proof.
  induction snapshot as [| [[l w] c] rows IH]; intros st D; simpl.
  - rewrite app_nil_r. split; reflexivity.
  - unfold Window._load_row at 2 4. rewrite (add_dense _ _ D).
    match goal with |- context [fold_left _ _ ?s] => destruct (IH s) as [V U] end.
    + simpl. apply dense_snoc. exact D.
    + rewrite V, U. simpl. rewrite values_snoc, <- app_assoc. split; reflexivity.
Qed.

Lemma float_zero_cases (x : float) :
  PrimFloat.eqb x 0 = true -> x = zero \/ x = neg_zero.
Proof.
  rewrite FloatAxioms.eqb_spec. intros H.
  rewrite <- (SF2Prim_Prim2SF x).
  destruct (Prim2SF x) as [[|] | [|] | | [|] m e]; try discriminate H.
  - right. reflexivity.
  - left. reflexivity.
Qed.

Lemma survives_reload_text (x : float) :
  Spec.survives_reload x ->
  Store.to_float (Window.entry_text (Window.Float x)) = x.
Proof.
  intros [Hz Hr]. unfold Window.entry_text, Window.is_zero.
  destruct (PrimFloat.eqb x 0) eqn:E.
  - destruct (float_zero_cases x E) as [-> | ->]; [reflexivity | contradiction].
  - unfold Window.str, Store.to_float. rewrite Hr. reflexivity.
Qed.

Lemma reload_rows_survive (snapshot : Store.InputData) :
  Forall Spec.survives_reload (Spec.fields snapshot) ->
  map Spec.reload_row snapshot = snapshot.
Proof.
  induction snapshot as [| [[l w] c] rows IH]; simpl; intros H; [reflexivity |].
  inversion H as [| ? ? Hl H1]; subst. inversion H1 as [| ? ? Hw H2]; subst.
  inversion H2 as [| ? ? Hc H3]; subst.
  rewrite (IH H3), !survives_reload_text by assumption. reflexivity.
Qed.







(** * Further properties of the row store *)

Lemma dict_mem_keys (k : nat) (d : Store.StorageType) :
  Store.dict_mem k d = true <-> In k (Store.keys d).
Proof.
  unfold Store.dict_mem, Store.keys. rewrite existsb_exists, in_map_iff.
  split.
  - intros (e & He & Hk). apply Nat.eqb_eq in Hk. exists e. split; auto.
  - intros (e & Hk & He). exists e. split; [exact He |]. apply Nat.eqb_eq. auto.
Qed.

Lemma dict_mem_fresh (k : nat) (d : Store.StorageType) :
  Store.dict_mem k d = false <-> ~ In k (Store.keys d).
Proof.
  rewrite <- dict_mem_keys. destruct (Store.dict_mem k d); split; intros H;
    congruence || (exfalso; apply H; reflexivity) || discriminate.
Qed.

Lemma dict_set_present (k : nat) (v : Store.StoreRowType) (d : Store.StorageType) :
  In k (Store.keys d) -> Store.keys (Store.dict_set k v d) = Store.keys d.
Proof.
  induction d as [| [k' v'] d IH]; simpl; intros H; [contradiction |].
  destruct (Nat.eqb k k') eqn:E.
  - apply Nat.eqb_eq in E. subst. reflexivity.
  - simpl. f_equal. apply IH. destruct H as [H | H]; [| exact H].
    apply Nat.eqb_neq in E. congruence.
Qed.

Lemma keys_dict_remove (k : nat) (d : Store.StorageType) :
  Store.keys (Store.dict_remove k d)
  = filter (fun k' => negb (Nat.eqb k k')) (Store.keys d).
Proof.
  unfold Store.keys, Store.dict_remove.
  induction d as [| [k' v'] d IH]; simpl; [reflexivity |].
  destruct (Nat.eqb k k'); simpl; rewrite IH; reflexivity.
Qed.

Lemma dict_remove_fresh (k : nat) (d : Store.StorageType) :
  ~ In k (Store.keys d) -> Store.dict_remove k d = d.
Proof.
  unfold Store.dict_remove, Store.keys.
  induction d as [| [k' v'] d IH]; simpl; intros H; [reflexivity |].
  destruct (Nat.eqb k k') eqn:E.
  - apply Nat.eqb_eq in E. exfalso. apply H. left. auto.
  - simpl. rewrite IH; [reflexivity |]. intros Hin. apply H. right. exact Hin.
Qed.




Lemma step_add_dense (d : Store.StorageType) (v : Store.StoreRowType) :
  Spec.dense d ->
  Spec.step d (Spec.Add v) = d ++ [(List.length d, v)].
Proof. intros D. unfold Spec.step. rewrite (add_dense d v D). reflexivity. Qed.

Lemma adds_from (rows : list Store.StoreRowType) :
  forall d : Store.StorageType,
    Spec.dense d ->
    Spec.dense (fold_left Spec.step (map Spec.Add rows) d)
    /\ Store.values (fold_left Spec.step (map Spec.Add rows) d)
       = Store.values d ++ map Session.parse_row rows
    /\ Spec.assigned d (map Spec.Add rows)
       = seq (List.length d) (List.length rows).
Proof.
  induction rows as [| [[l w] c] rows IH]; intros d D.
  - simpl. rewrite app_nil_r. split; [exact D |]. split; reflexivity.
  - cbn [map fold_left Spec.assigned List.length seq].
    rewrite (step_add_dense d _ D).
    destruct (IH (d ++ [(List.length d, (l, w, c))]) (dense_snoc d _ D))
      as (D' & V & A).
    split; [exact D' |]. split.
    + refine (eq_trans V _). rewrite values_snoc, <- app_assoc. reflexivity.
    + unfold Store.add. cbn [snd]. f_equal.
      refine (eq_trans A _). rewrite length_app, Nat.add_1_r. reflexivity.
Qed.

(** X2: in a session that only adds, the identifiers handed out are
    0, 1, 2, ... in order, they are the keys of the mapping, and the
    snapshot lists the parsed rows in the order they were added. *)
Theorem adds_alone_number_rows_in_order :
  forall rows : list Store.StoreRowType,
    Spec.assigned [] (map Spec.Add rows) = seq 0 (List.length rows)
    /\ Store.keys (Spec.run (map Spec.Add rows)) = seq 0 (List.length rows)
    /\ Store.values (Spec.run (map Spec.Add rows))
       = map Session.parse_row rows.
Proof.
  intros rows.
  destruct (adds_from rows [] eq_refl) as (D & V & A).
  split; [exact A |]. split; [| exact V].
  unfold Spec.run. rewrite D. f_equal.
  rewrite <- (values_length (fold_left Spec.step (map Spec.Add rows) [])), V.
  simpl. apply length_map.
Qed.

Lemma dict_set_length (k : nat) (v : Store.StoreRowType) (d : Store.StorageType) :
  List.length (Store.dict_set k v d)
  = if Store.dict_mem k d then List.length d else S (List.length d).
Proof.
  destruct (Store.dict_mem k d) eqn:M.
  - apply dict_mem_keys in M.
    rewrite <- (length_map fst), <- (length_map fst d).
    fold (Store.keys (Store.dict_set k v d)). fold (Store.keys d).
    rewrite dict_set_present by exact M. reflexivity.
  - apply dict_mem_fresh in M. rewrite dict_set_fresh by exact M.
    rewrite length_app. simpl. lia.
Qed.

Lemma dict_set_in (k : nat) (v : Store.StoreRowType) (d : Store.StorageType) :
  In (k, v) (Store.dict_set k v d).
Proof.
  induction d as [| [k' v'] d IH]; simpl; [now left |].
  destruct (Nat.eqb k k'); [now left | right; exact IH].
Qed.

(** X3: [add] makes the mapping one entry longer exactly when its size
    is not an identifier in use; when it is, the mapping keeps its
    length and its keys, and the entry under that identifier is
    replaced. *)
Theorem add_grows_unless_size_is_a_key :
  forall (storage : Store.StorageType) (values : Store.StoreRowType),
    List.length (fst (Store.add storage values))
    = (if Store.dict_mem (List.length storage) storage
       then List.length storage else S (List.length storage))
    /\ In (List.length storage, values) (fst (Store.add storage values))
    /\ (Store.dict_mem (List.length storage) storage = true ->
        Store.keys (fst (Store.add storage values)) = Store.keys storage).
Proof.
  intros d v. unfold Store.add. cbn [fst].
  split; [apply dict_set_length |]. split.
  - apply dict_set_in.
  - intros M. apply dict_set_present. apply dict_mem_keys. exact M.
Qed.

Lemma dict_remove_shorter (k : nat) (d : Store.StorageType) :
  Store.dict_mem k d = true ->
  (List.length (Store.dict_remove k d) < List.length d)%nat.
Proof.
  unfold Store.dict_mem, Store.dict_remove.
  induction d as [| [k' v'] d IH]; simpl; [discriminate |].
  destruct (Nat.eqb k k'); simpl.
  - intros _. pose proof (filter_length_le (fun e => negb (Nat.eqb k (fst e))) d).
    lia.
  - intros H. specialize (IH H). lia.
Qed.

Lemma present_rows_bound (ops : list Spec.op) :
  forall (d : Store.StorageType) (n : Z),
    Z.of_nat (List.length d) <= n ->
    Z.of_nat (List.length (fold_left Spec.step ops d))
    <= Spec.present_rows d ops n.
Proof.
  induction ops as [| [v | id] ops IH]; intros d n H; simpl; [exact H | |].
  - apply IH. unfold Store.add. cbn [fst]. rewrite dict_set_length.
    destruct (Store.dict_mem _ d); lia.
  - apply IH. unfold Store.destroy, Store.dict_del.
    destruct (Store.dict_mem id d) eqn:M; [| exact H].
    pose proof (dict_remove_shorter id d M). lia.
Qed.

(** X4: in every session the snapshot has at most as many rows as were
    added and not removed; a row can be lost, none is made up. *)
Theorem snapshot_never_exceeds_present_rows :
  forall ops : list Spec.op,
    Z.of_nat (List.length (Store.values (Spec.run ops)))
    <= Spec.present_rows [] ops 0.
Proof.
  intros ops. rewrite values_length. unfold Spec.run.
  apply present_rows_bound. simpl. lia.
Qed.

(** X5: when the size of the mapping is not an identifier in use, an
    [add] followed by the call of the closure it returned gives the
    mapping back as it was. *)
Theorem add_then_destroy_restores :
  forall (storage : Store.StorageType) (values : Store.StoreRowType),
    ~ In (List.length storage) (Store.keys storage) ->
    Store.destroy (fst (Store.add storage values))
      (snd (Store.add storage values))
    = Some storage.
Proof.
  intros d v F. unfold Store.add. cbn [fst snd].
  rewrite (dict_set_fresh _ v d F).
  unfold Store.destroy, Store.dict_del.
  assert (M : Store.dict_mem (List.length d) (d ++ [(List.length d, v)]) = true).
  { apply dict_mem_keys. unfold Store.keys. rewrite map_app. apply in_or_app.
    right. now left. }
  rewrite M. f_equal.
  unfold Store.dict_remove. rewrite filter_app. simpl.
  rewrite Nat.eqb_refl. simpl. rewrite app_nil_r.
  apply (dict_remove_fresh _ d F).
Qed.

(** The row ("7", "", "1") added to a mapping that holds one row under
    the identifier 0, then removed again. *)
Lemma add_then_destroy_restores_witness :
  Store.destroy
    (fst (Store.add [(0%nat, ("2", "3", "1")%string)] ("7", "", "1")%string))
    (snd (Store.add [(0%nat, ("2", "3", "1")%string)] ("7", "", "1")%string))
  = Some [(0%nat, ("2", "3", "1")%string)].
Proof.
  apply (add_then_destroy_restores [(0%nat, ("2", "3", "1")%string)]).
  simpl. intros [H | []]. discriminate H.
Defined.

Lemma dense_nodup (d : Store.StorageType) :
  Spec.dense d -> NoDup (Store.keys d).
Proof. unfold Spec.dense. intros ->. apply seq_NoDup. Qed.

Lemma filter_length_nodup (k : nat) (l : list nat) :
  NoDup l -> In k l ->
  S (List.length (filter (fun k' => negb (Nat.eqb k k')) l)) = List.length l.
Proof.
  induction l as [| a l IH]; intros N H; [contradiction |].
  inversion N as [| ? ? Ha Nl]; subst. simpl.
  destruct (Nat.eqb k a) eqn:E; simpl.
  - apply Nat.eqb_eq in E. subst a. f_equal.
    clear IH N Nl H. induction l as [| b l IH]; simpl; [reflexivity |].
    destruct (Nat.eqb k b) eqn:E'.
    + apply Nat.eqb_eq in E'. subst. exfalso. apply Ha. now left.
    + simpl. f_equal. apply IH. intros Hin. apply Ha. now right.
  - f_equal. apply IH; [exact Nl |]. destruct H as [H | H]; [| exact H].
    apply Nat.eqb_neq in E. congruence.
Qed.

(** X6: in a mapping filled by adds alone, deleting any row but the
    newest makes the next [add] reuse the identifier of the newest row:
    the add is given that identifier, finds it in use, and leaves the
    mapping no longer than before. *)
Theorem add_after_inner_removal_collides :
  forall (storage : Store.StorageType) (id : nat) (values : Store.StoreRowType),
    Spec.dense storage ->
    (S id < List.length storage)%nat ->
    exists d' : Store.StorageType,
      Store.destroy storage id = Some d'
      /\ snd (Store.add d' values) = Nat.pred (List.length storage)
      /\ Store.dict_mem (Nat.pred (List.length storage)) d' = true
      /\ List.length (fst (Store.add d' values)) = Nat.pred (List.length storage).
Proof.
  intros d id v D L.
  assert (Hid : In id (Store.keys d)) by (rewrite D; apply in_seq; lia).
  assert (Hlast : In (Nat.pred (List.length d)) (Store.keys d))
    by (rewrite D; apply in_seq; lia).
  exists (Store.dict_remove id d).
  unfold Store.destroy, Store.dict_del.
  rewrite (proj2 (dict_mem_keys id d) Hid).
  assert (Len : List.length (Store.dict_remove id d) = Nat.pred (List.length d)).
  { pose proof (filter_length_nodup id (Store.keys d) (dense_nodup d D) Hid) as E.
    rewrite <- keys_dict_remove in E. unfold Store.keys in E.
    rewrite !length_map in E. lia. }
  assert (M : Store.dict_mem (Nat.pred (List.length d)) (Store.dict_remove id d) = true).
  { apply dict_mem_keys. rewrite keys_dict_remove. apply filter_In.
    split; [exact Hlast |]. apply negb_true_iff, Nat.eqb_neq. lia. }
  split; [reflexivity |]. split; [exact Len |]. split; [exact M |].
  unfold Store.add. cbn [fst]. rewrite dict_set_length, Len, M. reflexivity.
Qed.

(** Three rows added, then the first one deleted, then an add. *)
Lemma add_after_inner_removal_collides_witness :
  exists d' : Store.StorageType,
    Store.destroy
      (Spec.run [Spec.Add ("1", "1", "1"); Spec.Add ("2", "2", "1");
                 Spec.Add ("3", "3", "1")]%string) 0
    = Some d'
    /\ snd (Store.add d' ("4", "4", "1")%string) = 2%nat
    /\ Store.dict_mem 2 d' = true
    /\ List.length (fst (Store.add d' ("4", "4", "1")%string)) = 2%nat.
Proof.
  apply (add_after_inner_removal_collides
           (Spec.run [Spec.Add ("1", "1", "1"); Spec.Add ("2", "2", "1");
                      Spec.Add ("3", "3", "1")]%string) 0%nat
           ("4", "4", "1")%string).
  - reflexivity.
  - simpl. lia.
Defined.


(** * Further properties of the entry validation *)























(** * Further properties of the window *)

Lemma load_row_appends (st : Window.state) (values : list Window.number) :
  Spec.dense (Window.storage st) ->
  exists texts : Store.StoreRowType,
    Window._load_row st values
    = Window.set_storage
        (Window.storage st ++ [(List.length (Window.storage st), texts)])
        (Window.set_input_frame
           (Window.input_frame st ++ [List.length (Window.storage st)]) st).
Proof.
  intros D. unfold Window._load_row.
  destruct (match values with
            | [l; w; c] => (l, w, c)
            | _ => (Window.Float 0, Window.Float 0, Window.Float 1)
            end) as [[l w] c].
  rewrite (add_dense _ _ D). eexists. reflexivity.
Qed.

Lemma in_step_snoc (st : Window.state) (texts : Store.StoreRowType) :
  Session.in_step st ->
  Session.in_step
    (Window.set_storage
       (Window.storage st ++ [(List.length (Window.storage st), texts)])
       (Window.set_input_frame
          (Window.input_frame st ++ [List.length (Window.storage st)]) st)).
Proof.
  unfold Session.in_step, Store.keys. simpl. intros ->.
  rewrite map_app. reflexivity.
Qed.

Lemma load_rows_in_step (rows : list (list Window.number)) :
  forall st : Window.state,
    Spec.dense (Window.storage st) -> Session.in_step st ->
    Spec.dense (Window.storage (fold_left Window._load_row rows st))
    /\ Session.in_step (fold_left Window._load_row rows st)
    /\ List.length (Window.storage (fold_left Window._load_row rows st))
       = (List.length (Window.storage st) + List.length rows)%nat
    /\ Window.unit_id (fold_left Window._load_row rows st) = Window.unit_id st
    /\ Window.result (fold_left Window._load_row rows st) = Window.result st.
Proof.
  induction rows as [| r rows IH]; intros st D I.
  - simpl. rewrite Nat.add_0_r. repeat split; assumption.
  - cbn [fold_left]. destruct (load_row_appends st r D) as [texts E].
    rewrite E.
    match goal with |- context [fold_left _ _ ?s] => destruct (IH s) as (D' & I' & L & U & R) end.
    + simpl. apply dense_snoc. exact D.
    + apply in_step_snoc. exact I.
    + split; [exact D' |]. split; [exact I' |]. split; [| split; assumption].
      rewrite L. simpl. rewrite length_app. simpl. lia.
Qed.

Lemma calc_keeps_frames (st : Window.state) :
  Window.input_frame (fst (UI._calc st)) = Window.input_frame st.
Proof.
  unfold UI._calc.
  apply (load_result_keeps st (UI.total_area (Store.values (Window.storage st)))).
Qed.

Lemma in_step_calc (st : Window.state) :
  Session.in_step st -> Session.in_step (fst (UI._calc st)).
Proof.
  unfold Session.in_step. rewrite calc_keeps_frames.
  rewrite (proj1 (calc_keeps st)). auto.
Qed.


Lemma load_result_status (st : Window.state) (res : float) :
  (Window.unit_id st = 0 \/ Window.unit_id st = 1 ->
   snd (Window._load_result st res) = Window.Returned)
  /\ (Window.unit_id st <> 0 -> Window.unit_id st <> 1 ->
      Window._load_result st res = (st, Window.Raised Window.KeyError)).
Proof.
  unfold Window._load_result, Window._convert_to_feet. split.
  - intros [H | H]; rewrite H; reflexivity.
  - intros H0 H1. destruct (Window.unit_id st) as [| [p | p |] | p];
      try reflexivity; contradiction.
Qed.

(** X10: when the file unpickles to a list whose first tuple has an
    integer-valued third item [n], the window ends up with one row per
    further tuple, numbered from 0, whatever it held before, and with
    [n] as its unit; [_calc] then returns when [n] is 0 or 1, and for
    any other [n] it raises [KeyError] with the rows of the file and the
    unit [n] in place and the result line of before. *)
Theorem load_installs_rows_and_unit :
  forall (filename : string) (fs : UI.filesystem) (st : Window.state)
         (unit : list Window.number) (rows : list (list Window.number))
         (u : Window.number) (n : Z),
    UI.unpickle fs filename = Some (UI.PyList (unit :: rows)) ->
    nth_error unit 2 = Some u ->
    UI.int u = inl n ->
    Store.keys (Window.storage (fst (UI._load filename fs st)))
    = seq 0 (List.length rows)
    /\ Window.input_frame (fst (UI._load filename fs st))
       = seq 0 (List.length rows)
    /\ Window.unit_id (fst (UI._load filename fs st)) = n
    /\ (n = 0 \/ n = 1 -> snd (UI._load filename fs st) = Window.Returned)
    /\ (n <> 0 -> n <> 1 ->
        snd (UI._load filename fs st) = Window.Raised Window.KeyError
        /\ Window.result (fst (UI._load filename fs st)) = Window.result st).
Proof.
  intros filename fs st unit rows u n Hp Hu Hn.
  unfold UI._load. rewrite Hp, Hu, Hn.
  set (st1 := Window.set_unit_id n (Window._clear_input st)).
  destruct (load_rows_in_step rows st1) as (D & I & L & U & R);
    [reflexivity | reflexivity |].
  set (st2 := fold_left Window._load_row rows st1) in *.
  destruct (calc_keeps st2) as [S2 U2].
  pose proof (calc_keeps_frames st2) as F2.
  assert (K : Store.keys (Window.storage st2) = seq 0 (List.length rows))
    by (rewrite D, L; reflexivity).
  split; [rewrite S2; exact K |].
  split; [rewrite F2, I; exact K |].
  split; [rewrite U2, U; reflexivity |].
  unfold UI._calc.
  destruct (load_result_status st2
              (UI.total_area (Store.values (Window.storage st2)))) as [Ok Ko].
  rewrite U in Ok, Ko. change (Window.unit_id st1) with n in Ok, Ko.
  split; [exact Ok |].
  intros H0 H1. rewrite (Ko H0 H1). split; [reflexivity |]. exact R.
Qed.

(** A document with the unit index 7 and one row, opened in a new
    window. *)
Lemma load_installs_rows_and_unit_witness :
  Window.unit_id
    (fst (UI._load "odd.area"
            (UI.write Spec.no_files "odd.area"
               (UI.Pickle (UI.PyList
                  [[Window.Int (-1); Window.Int (-1); Window.Int 7];
                   [Window.Float 1; Window.Float 2; Window.Float 3]])))
            (fst (UI.init []))))
  = 7.
Proof.
  apply (load_installs_rows_and_unit "odd.area"
           (UI.write Spec.no_files "odd.area"
              (UI.Pickle (UI.PyList
                 [[Window.Int (-1); Window.Int (-1); Window.Int 7];
                  [Window.Float 1; Window.Float 2; Window.Float 3]])))
           (fst (UI.init []))
           [Window.Int (-1); Window.Int (-1); Window.Int 7]
           [[Window.Float 1; Window.Float 2; Window.Float 3]]
           (Window.Int 7) 7); reflexivity.
Defined.

(** X11: [_calc] writes the result line and nothing else: the mapping,
    the unit, the row frames and the printed lines stay as they are, and
    the only exception it lets out is the [KeyError] of an unknown unit,
    in which case the result line stays too. *)
Theorem calc_only_writes_result :
  forall st : Window.state,
    Window.storage (fst (UI._calc st)) = Window.storage st
    /\ Window.unit_id (fst (UI._calc st)) = Window.unit_id st
    /\ Window.input_frame (fst (UI._calc st)) = Window.input_frame st
    /\ Window.stdout (fst (UI._calc st)) = Window.stdout st
    /\ (snd (UI._calc st) = Window.Returned
        \/ UI._calc st = (st, Window.Raised Window.KeyError)).
Proof.
  intros st. unfold UI._calc.
  generalize (UI.total_area (Store.values (Window.storage st))) as res.
  intros res. unfold Window._load_result.
  destruct (Store.units (Window.unit_id st)) as [u |];
    [destruct (Window._convert_to_feet st res) as [feet |] |];
    cbn [fst snd]; repeat split; (now left) || (now right).
Qed.


Lemma filter_out_nth (l : list nat) :
  forall (i id : nat),
    NoDup l -> nth_error l i = Some id ->
    filter (fun k => negb (Nat.eqb id k)) l = firstn i l ++ skipn (S i) l.
Proof.
  induction l as [| a l IH]; intros i id N H.
  - destruct i; discriminate H.
  - inversion N as [| ? ? Ha Nl]; subst.
    destruct i as [| i]; cbn [nth_error] in H.
    + injection H as ->. cbn [filter firstn skipn app].
      rewrite Nat.eqb_refl. cbn [negb].
      clear IH N Nl. induction l as [| b l IH]; [reflexivity |].
      cbn [filter]. destruct (Nat.eqb id b) eqn:E.
      * apply Nat.eqb_eq in E. subst. exfalso. apply Ha. now left.
      * cbn [negb]. f_equal. apply IH. intros Hin. apply Ha. now right.
    + cbn [filter firstn skipn app].
      destruct (Nat.eqb id a) eqn:E.
      * apply Nat.eqb_eq in E. subst a. exfalso. apply Ha.
        apply (nth_error_In l i H).
      * cbn [negb]. f_equal. apply (IH i id Nl H).
Qed.

(** X12: in a window whose row frames are bound each to its own entry, a
    click on the Delete button of a row returns without an exception,
    removes that row's entry and no other, makes the mapping one entry
    shorter and leaves the frames bound to their entries. *)
Theorem delete_removes_its_row :
  forall (st : Window.state) (i id : nat),
    Session.in_step st ->
    NoDup (Store.keys (Window.storage st)) ->
    nth_error (Window.input_frame st) i = Some id ->
    snd (Window.click_delete i st) = Window.Returned
    /\ Window.storage (Session.after_delete i st)
       = Store.dict_remove id (Window.storage st)
    /\ Session.in_step (Session.after_delete i st)
    /\ S (List.length (Window.storage (Session.after_delete i st)))
       = List.length (Window.storage st)
    /\ (forall (k : nat) (v : Store.StoreRowType),
           In (k, v) (Window.storage (Session.after_delete i st))
           <-> In (k, v) (Window.storage st) /\ k <> id).
Proof.
  intros st i id I N H.
  assert (Hin : In id (Store.keys (Window.storage st)))
    by (rewrite <- I; apply (nth_error_In _ _ H)).
  unfold Session.after_delete, Window.click_delete. rewrite H.
  cbn [Window.storage Window.set_input_frame].
  unfold Store.destroy, Store.dict_del.
  rewrite (proj2 (dict_mem_keys id _) Hin). cbn [fst snd].
  split; [reflexivity |]. split; [reflexivity |]. split; [| split].
  - unfold Session.in_step. cbn [Window.input_frame Window.storage Window.set_storage
                                   Window.set_input_frame].
    rewrite keys_dict_remove, <- I. symmetry.
    apply filter_out_nth; [rewrite I; exact N | exact H].
  - cbn [Window.storage Window.set_storage].
    pose proof (filter_length_nodup id _ N Hin) as E.
    rewrite <- keys_dict_remove in E. unfold Store.keys in E.
    rewrite !length_map in E. exact E.
  - intros k v. cbn [Window.storage Window.set_storage].
    unfold Store.dict_remove. rewrite filter_In. cbn [fst].
    rewrite negb_true_iff, Nat.eqb_neq.
    split; intros [H1 H2]; split; auto.
Qed.

(** The window opened on two rows; a click on Delete in the first. *)
Lemma delete_removes_its_row_witness :
  Window.storage
    (Session.after_delete 0
       (Window._load_row (Window._load_row Window._set_variables []) []))
  = Store.dict_remove 0
      (Window.storage
         (Window._load_row (Window._load_row Window._set_variables []) [])).
Proof.
  apply (delete_removes_its_row
           (Window._load_row (Window._load_row Window._set_variables []) [])
           0%nat 0%nat).
  - reflexivity.
  - simpl. repeat constructor; simpl; intuition discriminate.
  - reflexivity.
Defined.

Lemma int_to_float_144 : Store.int_to_float (12 ^ 2) = 144%float.
Proof. vm_compute. reflexivity. Qed.

Lemma load_result_inches (st : Window.state) (res : float) :
  Window.unit_id st = 0 ->
  Window._load_result st res
  = (Window.set_result
       (Window.describe "Inches" res (round (res / 144) 2)) st,
     Window.Returned).
Proof.
  intros H. unfold Window._load_result, Window._convert_to_feet.
  rewrite H. unfold Store.units, Store.calc, Store.name.
  rewrite int_to_float_144. reflexivity.
Qed.

(** X13: a window opened on a non-empty list of rows whose numbers
    survive the passage through entry text shows exactly these rows:
    the snapshot is the list given, the row frames are bound to their
    entries, the unit is Inches, and the result line reports the total
    of the rows and its rounded 144th part. *)
Theorem init_shows_given_rows :
  forall rows : Store.InputData,
    rows <> [] ->
    Forall Spec.survives_reload (Spec.fields rows) ->
    Store.values (Window.storage (fst (UI.init (map UI.row_numbers rows))))
    = rows
    /\ Session.in_step (fst (UI.init (map UI.row_numbers rows)))
    /\ Window.unit_id (fst (UI.init (map UI.row_numbers rows))) = 0
    /\ snd (UI.init (map UI.row_numbers rows)) = Window.Returned
    /\ Window.result (fst (UI.init (map UI.row_numbers rows)))
       = Window.describe "Inches" (UI.total_area rows)
           (round (UI.total_area rows / 144) 2).
Proof.
  intros rows Hne F.
  unfold UI.init, Window.init.
  assert (W : Window._load_window Window._set_variables (map UI.row_numbers rows)
              = fold_left Window._load_row (map UI.row_numbers rows)
                  Window._set_variables)
    by (destruct rows; [congruence | reflexivity]).
  rewrite W.
  set (st := fold_left Window._load_row (map UI.row_numbers rows)
               Window._set_variables).
  destruct (load_rows rows Window._set_variables) as [V U]; [reflexivity |].
  fold st in V, U. cbn [Window.storage Window._set_variables Store.values map app]
    in V.
  rewrite (reload_rows_survive rows F) in V.
  destruct (load_rows_in_step (map UI.row_numbers rows) Window._set_variables)
    as (_ & I & _); [reflexivity | reflexivity |].
  fold st in I.
  destruct (calc_keeps st) as [S1 U1].
  split; [rewrite S1; exact V |].
  split; [apply in_step_calc; exact I |].
  split; [rewrite U1; exact U |].
  unfold UI._calc. rewrite V.
  rewrite (load_result_inches st (UI.total_area rows) U).
  split; reflexivity.
Qed.

(** A window opened on the rows (2,3,1) and (1,1,1). *)
Lemma init_shows_given_rows_witness :
  Store.values
    (Window.storage
       (fst (UI.init (map UI.row_numbers [(2, 3, 1)%float; (1, 1, 1)%float]))))
  = [(2, 3, 1)%float; (1, 1, 1)%float].
Proof.
  apply (init_shows_given_rows [(2, 3, 1)%float; (1, 1, 1)%float]).
  - discriminate.
  - repeat (apply Forall_cons;
            [split;
             [intros H; apply (f_equal Prim2SF) in H; vm_compute in H;
              discriminate H
             | vm_compute; reflexivity] |]).
    apply Forall_nil.
Defined.

(** X14: a tuple of values that has not exactly three items is treated
    by [_load_row] like no values at all; in a mapping filled by adds
    alone this appends a row that snapshots as (0.0, 0.0, 1.0). *)
Theorem load_row_of_wrong_arity :
  forall (st : Window.state) (values : list Window.number),
    List.length values <> 3%nat ->
    Spec.dense (Window.storage st) ->
    Window._load_row st values = Window._load_row st []
    /\ Store.values (Window.storage (Window._load_row st values))
       = Store.values (Window.storage st) ++ [(0, 0, 1)%float].
Proof.
  intros st values L D.
  assert (E : Window._load_row st values = Window._load_row st []).
  { destruct values as [| a [| b [| c [| d values]]]];
      [reflexivity | reflexivity | reflexivity | | reflexivity].
    exfalso. apply L. reflexivity. }
  split; [exact E |]. rewrite E. unfold Window._load_row.
  rewrite (add_dense _ _ D). cbn [Window.storage Window.set_storage].
  rewrite values_snoc. apply f_equal. vm_compute. reflexivity.
Qed.

(** The window after [_set_variables], given a pair as a row. *)
Lemma load_row_of_wrong_arity_witness :
  Window._load_row Window._set_variables [Window.Float 4; Window.Float 5]
  = Window._load_row Window._set_variables [].
Proof.
  apply (load_row_of_wrong_arity Window._set_variables
           [Window.Float 4; Window.Float 5]).
  - discriminate.
  - reflexivity.
Defined.
